(** * stock-backtest-execution: [app/processor.py]

    A shallow embedding of the two functions of the processor module,
    [validate_input_message] and [simulate_execution], together with the
    parts of the Python run time they rely on:

    - [float] is IEEE 754 binary64, modelled by [spec_float] at precision 53
      and maximal exponent 1024, with correctly rounded operations;
    - [int] is [Z];
    - a [dict] with [str] keys is a [gmap string value];
    - dict objects live in a heap and are passed by reference, so that
      "the same object", "a new object" and "not mutated" can be stated;
    - exceptions and the calls made on the module logger are explicit. *)

From Stdlib Require Import ZArith Ascii String Floats.SpecFloat.
From stdpp Require Import gmap strings list fin_maps.

Local Open Scope Z_scope.

(** ** Binary64 arithmetic *)

Module F64.

Definition prec : Z := 53.
Definition emax : Z := 1024.

Definition float : Type := spec_float.

Definition add : float -> float -> float := SFadd prec emax.
Definition sub : float -> float -> float := SFsub prec emax.
Definition mul : float -> float -> float := SFmul prec emax.
Definition eqb : float -> float -> bool := SFeqb.

(** The double nearest to [n / d] (ties to even), with sign [s]. *)
Definition of_ratio (s : bool) (n d : positive) : float :=
  let '(q, e, l) := SFdiv_core_binary prec emax (Zpos n) 0 (Zpos d) 0 in
  binary_round_aux prec emax s q e l.

(** The double nearest to [m * 10 ^ e10], with sign [s]: what a decimal
    literal of the source, or [float] of a decimal string, evaluates to. *)
Definition of_decimal (s : bool) (m : N) (e10 : Z) : float :=
  match m with
  | N0 => S754_zero s
  | Npos p =>
      if 0 <=? e10 then of_ratio s (p * Z.to_pos (10 ^ e10)) 1
      else of_ratio s p (Z.to_pos (10 ^ (- e10)))
  end.

(** [float(n)] for an [int] [n]: correctly rounded; the result is an
    infinity exactly when Python raises [OverflowError]. *)
Definition of_Z (z : Z) : float := binary_normalize prec emax z 0 false.

Definition is_finite (x : float) : bool :=
  match x with
  | S754_zero _ | S754_finite _ _ _ => true
  | _ => false
  end.

(** [int(x)] for a finite [x]: the integer part, rounded toward zero. *)
Definition trunc (x : float) : option Z :=
  match x with
  | S754_zero _ => Some 0
  | S754_finite s m e =>
      Some (if 0 <=? e then cond_Zopp s (Zpos m * 2 ^ e)
            else Z.quot (cond_Zopp s (Zpos m)) (2 ^ (- e)))
  | _ => None
  end.

(** The exact value of a finite [x], as a fraction whose denominator is a
    power of two. *)
Definition exact (x : float) : option (Z * Z) :=
  match x with
  | S754_zero _ => Some (0, 1)
  | S754_finite s m e =>
      Some (if 0 <=? e then (cond_Zopp s (Zpos m * 2 ^ e), 1)
            else (cond_Zopp s (Zpos m), 2 ^ (- e)))
  | _ => None
  end.

(** [n / d] rounded to the nearest integer, ties to the even one. *)
Definition div_half_even (n d : Z) : Z :=
  let q := n / d in
  let r := n mod d in
  match 2 * r ?= d with
  | Lt => q
  | Eq => if Z.even q then q else q + 1
  | Gt => q + 1
  end.

(** [|x| * 10 ^ nd] rounded to the nearest integer, ties to even, for a
    finite non-zero [x = +- m * 2 ^ e]. *)
Definition scaled_digits (m : positive) (e : Z) (nd : N) : Z :=
  if 0 <=? e then Zpos m * 2 ^ e * 10 ^ Z.of_N nd
  else div_half_even (Zpos m * 10 ^ Z.of_N nd) (2 ^ (- e)).

(** [round(x, ndigits)] for [0 <= ndigits]: the exact value of [x] is
    rounded half-even to [ndigits] decimals and the decimal obtained is
    converted back to the nearest double; the sign of [x] is kept, and
    infinities and NaN are returned as they are.  CPython returns [x]
    itself when [ndigits] is above 323. *)
Definition round_ndigits (x : float) (nd : N) : float :=
  match x with
  | S754_finite s m e =>
      if (323 <? nd)%N then x
      else of_decimal s (Z.to_N (scaled_digits m e nd)) (- Z.of_N nd)
  | _ => x
  end.

End F64.

Abbreviation float := F64.float.

Definition f_100_0 : float := Eval vm_compute in F64.of_decimal false 1000 (-1).
Definition f_0_001 : float := Eval vm_compute in F64.of_decimal false 1 (-3).
Definition f_0_005 : float := Eval vm_compute in F64.of_decimal false 5 (-3).

(** ** Python values *)

(** The values a JSON-like message can hold.  Lists and nested dicts are
    kept as immutable data: the module never looks inside them.  Text is
    ASCII: the Unicode digits and spaces that [float] and [int] also accept
    are left out. *)
#[warnings="-register-all"]
Inductive value : Type :=
  | VNone
  | VBool (b : bool)
  | VInt (z : Z)
  | VFloat (f : float)
  | VStr (s : string)
  | VList (l : list value)
  | VDict (kv : list (string * value)).

(** A [dict] with [str] keys, and a reference to one in the heap. *)
Abbreviation dict := (gmap string value).
Definition loc : Type := nat.

(** What an exception or a log call holds: a value, or a reference to a
    dict object. *)
Inductive pyobj : Type :=
  | OVal (v : value)
  | ORef (l : loc).

Inductive exn_class : Type := ValueError | TypeError | OverflowError.

(** An exception: its class and its [args] tuple. *)
Record exn : Type := Exn { exn_cls : exn_class; exn_args : list pyobj }.

(** [cls("text")].  For the errors of built-in conversions the text is
    CPython's up to the operand it quotes. *)
Definition exn_of (c : exn_class) (text : string) : exn :=
  Exn c [OVal (VStr text)].

Inductive result (A : Type) : Type :=
  | Ok (a : A)
  | Err (e : exn).
Arguments Ok {A} a.
Arguments Err {A} e.

(** [x == s] for a string literal [s]: only a [str] with the same
    characters is equal to it. *)
Definition eq_str (x : value) (s : string) : bool :=
  match x with
  | VStr t => bool_decide (t = s)
  | _ => false
  end.

(** ** Numeric text *)

Module Text.

(** White space as [str.strip], [float] and [int] see it in ASCII text. *)
Definition is_space (c : ascii) : bool :=
  let n := N_of_ascii c in
  ((9 <=? n) && (n <=? 13) || (28 <=? n) && (n <=? 32))%N.

Definition digit (c : ascii) : option N :=
  let n := N_of_ascii c in
  if ((48 <=? n) && (n <=? 57))%N then Some (n - 48)%N else None.

Definition is_digit (c : ascii) : bool :=
  match digit c with Some _ => true | None => false end.

Definition lower (c : ascii) : ascii :=
  let n := N_of_ascii c in
  if ((65 <=? n) && (n <=? 90))%N then ascii_of_N (n + 32) else c.

Definition is_underscore (c : ascii) : bool := Ascii.eqb c "_".

Fixpoint drop_spaces (s : list ascii) : list ascii :=
  match s with
  | c :: r => if is_space c then drop_spaces r else s
  | [] => []
  end.

Definition strip (s : list ascii) : list ascii :=
  rev (drop_spaces (rev (drop_spaces s))).

(** An underscore may only stand between two digits. *)
Fixpoint underscores_ok (prev : option ascii) (s : list ascii) : bool :=
  match s with
  | [] => negb (from_option is_underscore false prev)
  | c :: r =>
      (if is_underscore c then from_option is_digit false prev
       else negb (from_option is_underscore false prev) || is_digit c)
      && underscores_ok (Some c) r
  end.

Definition remove_underscores (s : list ascii) : list ascii :=
  filter (fun c => is_underscore c = false) s.

Definition sign (s : list ascii) : bool * list ascii :=
  match s with
  | c :: r =>
      if Ascii.eqb c "-" then (true, r)
      else if Ascii.eqb c "+" then (false, r)
      else (false, s)
  | [] => (false, [])
  end.

(** The longest prefix of digits: its value on top of [acc], how many
    digits were read on top of [n], and what follows. *)
Fixpoint digits (s : list ascii) (acc : N) (n : nat) : N * nat * list ascii :=
  match s with
  | c :: r =>
      match digit c with
      | Some d => digits r (10 * acc + d)%N (S n)
      | None => (acc, n, s)
      end
  | [] => (acc, n, [])
  end.

(** What may follow a mantissa: nothing, or [e], a sign and digits. *)
Definition exponent (s : list ascii) : option Z :=
  match s with
  | [] => Some 0
  | c :: r =>
      if Ascii.eqb (lower c) "e" then
        let '(neg, r1) := sign r in
        match digits r1 0 0 with
        | (v, S _, []) => Some (if neg : bool then - Z.of_N v else Z.of_N v)
        | _ => None
        end
      else None
  end.

(** [digits [. digits] [exponent]] with a digit before or after the
    point, as the pair [(m, e)] that stands for [m * 10 ^ e]. *)
Definition decimal (s : list ascii) : option (N * Z) :=
  let '(ip, ni, r1) := digits s 0 0 in
  let '(m, nf, r2) :=
    match r1 with
    | c :: r => if Ascii.eqb c "." then digits r ip 0 else (ip, 0%nat, r1)
    | [] => (ip, 0%nat, r1)
    end in
  if (ni + nf =? 0)%nat then None
  else
    match exponent r2 with
    | Some e => Some (m, e - Z.of_nat nf)
    | None => None
    end.

(** [float(s)] for ASCII text [s]; [None] where Python raises
    [ValueError]. *)
Definition float_of_text (s : list ascii) : option float :=
  let t := strip s in
  if existsb is_underscore t && negb (underscores_ok None t) then None
  else
    let '(neg, r) := sign (remove_underscores t) in
    let w := String.string_of_list_ascii (map lower r) in
    if bool_decide (w = "inf"%string \/ w = "infinity"%string)
    then Some (S754_infinity neg)
    else if bool_decide (w = "nan"%string) then Some S754_nan
    else
      match decimal r with
      | Some (m, e) => Some (F64.of_decimal neg m e)
      | None => None
      end.

(** The default of [sys.get_int_max_str_digits()]. *)
Definition int_max_str_digits : nat := 4300.

(** [int(s)] for ASCII text [s]; [None] where Python raises
    [ValueError]. *)
Definition int_of_text (s : list ascii) : option Z :=
  let '(neg, r) := sign (strip s) in
  if underscores_ok None r then
    match digits (remove_underscores r) 0 0 with
    | (v, S n, []) =>
        if (int_max_str_digits <=? n)%nat then None
        else Some (if neg : bool then - Z.of_N v else Z.of_N v)
    | _ => None
    end
  else None.

End Text.

(** ** Built-in conversions *)

(** [float(n)] for an [int], as mixed arithmetic applies it too. *)
Definition float_of_int (z : Z) : result float :=
  let x := F64.of_Z z in
  if F64.is_finite x then Ok x
  else Err (exn_of OverflowError "int too large to convert to float").

(** [float(v)] *)
Definition py_float (v : value) : result float :=
  match v with
  | VFloat f => Ok f
  | VInt z => float_of_int z
  | VBool b => float_of_int (if b then 1 else 0)
  | VStr s =>
      match Text.float_of_text (String.list_ascii_of_string s) with
      | Some f => Ok f
      | None => Err (exn_of ValueError "could not convert string to float")
      end
  | VNone | VList _ | VDict _ =>
      Err (exn_of TypeError "float() argument must be a string or a real number")
  end.

(** [int(v)] *)
Definition py_int (v : value) : result Z :=
  match v with
  | VInt z => Ok z
  | VBool b => Ok (if b then 1 else 0)
  | VFloat f =>
      match F64.trunc f with
      | Some z => Ok z
      | None =>
          match f with
          | S754_nan =>
              Err (exn_of ValueError "cannot convert float NaN to integer")
          | _ =>
              Err (exn_of OverflowError "cannot convert float infinity to integer")
          end
      end
  | VStr s =>
      match Text.int_of_text (String.list_ascii_of_string s) with
      | Some z => Ok z
      | None => Err (exn_of ValueError "invalid literal for int() with base 10")
      end
  | VNone | VList _ | VDict _ =>
      Err (exn_of TypeError
             "int() argument must be a string, a bytes-like object or a real number")
  end.

(** ** The heap, the logger and the monad of Python code *)

Inductive level : Type := DEBUG | INFO | ERROR.

(** An argument of a log call as the handler formats it: a value, or the
    contents the dict it refers to has at the time of the call. *)
Inductive log_arg : Type :=
  | LogVal (v : value)
  | LogDict (d : dict).

Record log_record : Type :=
  LogRecord { log_level : level; log_msg : string; log_args : list log_arg }.

(** Dict objects by address, and the calls made on [logger] so far. *)
Record world : Type := World { heap : list dict; logs : list log_record }.

(** A call returns, raises, or is [Stuck] on a reference to no object
    (which no Python program can hold). *)
Inductive outcome (A : Type) : Type :=
  | Ret (a : A)
  | Raise (e : exn)
  | Stuck.
Arguments Ret {A} a.
Arguments Raise {A} e.
Arguments Stuck {A}.

Definition M (A : Type) : Type := world -> outcome A * world.

Definition ret {A} (a : A) : M A := fun w => (Ret a, w).

Definition raise {A} (e : exn) : M A := fun w => (Raise e, w).

Definition bind {A B} (c : M A) (k : A -> M B) : M B :=
  fun w =>
    match c w with
    | (Ret a, w1) => k a w1
    | (Raise e, w1) => (Raise e, w1)
    | (Stuck, w1) => (Stuck, w1)
    end.

Declare Scope py_scope.
Delimit Scope py_scope with py.
Notation "'let*' x ':=' c 'in' k" := (bind c (fun x => k))
  (at level 10, x name, c at level 100, k at level 200) : py_scope.
Notation "c ';;' k" := (bind c (fun _ => k))
  (at level 100, k at level 200, right associativity) : py_scope.
Local Open Scope py_scope.

(** A built-in conversion, raising its error. *)
Definition lift {A} (r : result A) : M A :=
  match r with
  | Ok a => ret a
  | Err e => raise e
  end.

(** [d.get(key, default)] *)
Definition dict_get (l : loc) (key : string) (fallback : value) : M value :=
  fun w =>
    match heap w !! l with
    | Some d => (Ret (default fallback (d !! key)), w)
    | None => (Stuck, w)
    end.

(** A dict display [{...}]: a new object. *)
Definition new_dict (d : dict) : M loc :=
  fun w => (Ret (length (heap w)), World (heap w ++ [d]) (logs w)).

(** [{**a, **b}]: a new object with the items of [a], then those of [b]
    over them. *)
Definition dict_merge (a b : loc) : M loc :=
  fun w =>
    match heap w !! a, heap w !! b with
    | Some da, Some db => new_dict (db ∪ da) w
    | _, _ => (Stuck, w)
    end.

Definition snapshot (h : list dict) (o : pyobj) : option log_arg :=
  match o with
  | OVal v => Some (LogVal v)
  | ORef l => LogDict <$> h !! l
  end.

(** [logger.debug / info / error (msg, *args)] *)
Definition logger_call (lv : level) (msg : string) (args : list pyobj) : M unit :=
  fun w =>
    match mapM (snapshot (heap w)) args with
    | Some las => (Ret tt, World (heap w) (logs w ++ [LogRecord lv msg las]))
    | None => (Stuck, w)
    end.

(** Mixed arithmetic: the [int] operand is converted to [float] first. *)
Definition int_add_float (a : Z) (b : float) : M float :=
  let* x := lift (float_of_int a) in ret (F64.add x b).
Definition int_sub_float (a : Z) (b : float) : M float :=
  let* x := lift (float_of_int a) in ret (F64.sub x b).
Definition int_mul_float (a : Z) (b : float) : M float :=
  let* x := lift (float_of_int a) in ret (F64.mul x b).
Definition float_mul_int (a : float) (b : Z) : M float :=
  let* y := lift (float_of_int b) in ret (F64.mul a y).

(** ** [app/processor.py] *)

Section Processor.

(** [app.utils.validate_data.validate_message_schema], the schema check
    the module imports: whether the contents of a message pass. *)
Variable validate_message_schema : dict -> bool.

Definition call_validate_message_schema (message : loc) : M bool :=
  fun w =>
    match heap w !! message with
    | Some d => (Ret (validate_message_schema d), w)
    | None => (Stuck, w)
    end.

Definition validate_input_message (message : loc) : M loc :=
  logger_call DEBUG "🔍 Validating message schema..." [];;
  let* ok := call_validate_message_schema message in
  if negb ok then
    logger_call ERROR "❌ Invalid message schema: %s" [ORef message];;
    raise (exn_of ValueError "Invalid message format")
  else ret message.

End Processor.

Definition slippage_pct : float := f_0_001.
Definition fee_per_share : float := f_0_005.

(** The dict display bound to [result]. *)
Definition result_dict (fill_price total_fee execution_cost : float)
    (action : value) : dict :=
  {[ "fill_price" := VFloat (F64.round_ndigits fill_price 4);
     "slippage_pct" := VFloat slippage_pct;
     "execution_fee" := VFloat (F64.round_ndigits total_fee 4);
     "execution_cost" := VFloat (F64.round_ndigits execution_cost 4);
     "status" := VStr (if eq_str action "BUY" || eq_str action "SELL"
                       then "executed" else "noop") ]}.

Definition simulate_execution (message : loc) : M loc :=
  let* symbol := dict_get message "symbol" (VStr "UNKNOWN") in
  let* action := dict_get message "action" (VStr "HOLD") in
  let* price_v := dict_get message "price" (VFloat f_100_0) in
  let* price := lift (py_float price_v) in
  let* quantity_v := dict_get message "quantity" (VInt 0) in
  let* quantity := lift (py_int quantity_v) in
  logger_call INFO "💼 Simulating execution: %s %d shares of %s"
    [OVal action; OVal (VInt quantity); OVal symbol];;
  let* factor :=
    (if eq_str action "BUY" then int_add_float 1 slippage_pct
     else int_sub_float 1 slippage_pct) in
  let fill_price := F64.mul price factor in
  let* total_fee := int_mul_float quantity fee_per_share in
  let* execution_cost :=
    (if eq_str action "BUY" then
       let* gross := float_mul_int fill_price quantity in
       ret (F64.add gross total_fee)
     else
       let* gross := float_mul_int fill_price quantity in
       int_mul_float (-1) (F64.sub gross total_fee)) in
  let* result := new_dict (result_dict fill_price total_fee execution_cost action) in
  logger_call DEBUG "📦 Execution result: %s" [ORef result];;
  dict_merge message result.

(** ** Doubles that the source and the specification write in decimal *)

Definition f_1_0 : float := Eval vm_compute in F64.of_Z 1.
Definition f_neg_1_0 : float := Eval vm_compute in F64.of_Z (-1).
Definition f_1_001 : float := Eval vm_compute in F64.of_decimal false 1001 (-3).
Definition f_0_999 : float := Eval vm_compute in F64.of_decimal false 999 (-3).
Definition f_99_9 : float := Eval vm_compute in F64.of_decimal false 999 (-1).
Definition f_neg_99_9 : float := Eval vm_compute in F64.of_decimal true 999 (-1).

(** ** What [simulate_execution] reads and computes *)

Definition symbol_of (d : dict) : value := default (VStr "UNKNOWN") (d !! "symbol").
Definition action_of (d : dict) : value := default (VStr "HOLD") (d !! "action").
Definition price_of (d : dict) : value := default (VFloat f_100_0) (d !! "price").
Definition quantity_of (d : dict) : value := default (VInt 0) (d !! "quantity").

(** The names of the derived fields. *)
Definition derived_fields : gset string :=
  {[ "fill_price"; "slippage_pct"; "execution_fee"; "execution_cost"; "status" ]}.

(** The two calls [simulate_execution] makes on the logger. *)
Definition info_record (action : value) (quantity : Z) (symbol : value) : log_record :=
  LogRecord INFO "💼 Simulating execution: %s %d shares of %s"
    [LogVal action; LogVal (VInt quantity); LogVal symbol].
Definition debug_record (result : dict) : log_record :=
  LogRecord DEBUG "📦 Execution result: %s" [LogDict result].

(** [simulate_execution] on a heap that holds the message alone: the
    contents of the record it returns, or the error it raises. *)
Definition run_simulate (d : dict) : outcome dict :=
  match simulate_execution 0%nat (World [d] []) with
  | (Ret out, w') =>
      match heap w' !! out with
      | Some r => Ret r
      | None => Stuck
      end
  | (Raise e, _) => Raise e
  | (Stuck, _) => Stuck
  end.

(** ** Definitions used to state the properties *)

(** The factor applied to the price, the unrounded fill price, the fee and
    the unrounded cost, as [simulate_execution] computes them from the price
    [price] and from the quantity as a float [qf]. *)
Definition factor_of (action : value) : float :=
  if eq_str action "BUY" then f_1_001 else f_0_999.

Definition fill_price_of (price : float) (action : value) : float :=
  F64.mul price (factor_of action).

Definition total_fee_of (qf : float) : float := F64.mul qf fee_per_share.

Definition execution_cost_of (price qf : float) (action : value) : float :=
  if eq_str action "BUY"
  then F64.add (F64.mul (fill_price_of price action) qf) (total_fee_of qf)
  else F64.mul f_neg_1_0
         (F64.sub (F64.mul (fill_price_of price action) qf) (total_fee_of qf)).

(** The dict bound to [result] for a message [d] whose price is [price]
    and whose quantity, as a float, is [qf]. *)
Definition result_of (d : dict) (price qf : float) : dict :=
  result_dict (fill_price_of price (action_of d)) (total_fee_of qf)
    (execution_cost_of price qf (action_of d)) (action_of d).

(** The world [simulate_execution] leaves when it returns: [result] and
    the merged dict are the two new objects. *)
Definition world_after (w : world) (d : dict) (price qf : float) (quantity : Z) : world :=
  let result := result_of d price qf in
  World (heap w ++ [result; result ∪ d])
    (logs w ++ [info_record (action_of d) quantity (symbol_of d);
                debug_record result]).

(** A trade request for AAPL at 100.0. *)
Definition trade (action : string) (quantity : value) : dict :=
  {[ "symbol" := VStr "AAPL"; "action" := VStr action;
     "price" := VFloat f_100_0; "quantity" := quantity ]}.

Definition f_10_0 : float := Eval vm_compute in F64.of_Z 10.
Definition f_10_9 : float := Eval vm_compute in F64.of_decimal false 109 (-1).

(** A message that already has a field named like a derived one. *)
Definition colliding : dict := <[ "status" := VStr "pending" ]> (trade "SELL" (VInt 10)).

Definition f_neg_0_0 : float := S754_zero true.

(** What [simulate_execution] derives from [{}]. *)
Definition empty_result : dict :=
  {[ "fill_price" := VFloat f_99_9;
     "slippage_pct" := VFloat f_0_001;
     "execution_fee" := VFloat (S754_zero false);
     "execution_cost" := VFloat f_neg_0_0;
     "status" := VStr "noop" ]}.

(** Modelled from the spec: [validate_message_schema] lives in
    [app/utils/validate_data.py], which is not among the sources.  The
    expected shape is the one of a validated message: "symbol" and "action"
    are text, "price" is a number and "quantity" an integer. *)
Definition spec_message_schema (d : dict) : bool :=
  match d !! "symbol", d !! "action", d !! "price", d !! "quantity" with
  | Some (VStr _), Some (VStr _), Some (VInt _ | VFloat _), Some (VInt _) => true
  | _, _, _, _ => false
  end.

Definition validating_record : log_record :=
  LogRecord DEBUG "🔍 Validating message schema..." [].
Definition invalid_record (d : dict) : log_record :=
  LogRecord ERROR "❌ Invalid message schema: %s" [LogDict d].

(** The error [validate_input_message] raises. *)
Definition invalid_format : exn := exn_of ValueError "Invalid message format".

(** An exception carries a dict object when the object is among its
    arguments. *)
Definition carries (e : exn) (l : loc) : Prop := ORef l ∈ exn_args e.

(** A message whose price is text. *)
Definition text_price : dict := <[ "price" := VStr "abc" ]> (trade "BUY" (VInt 10)).

(** [x] is a number, not a NaN, whose sign bit is [s]. *)
Definition has_sign (s : bool) (x : float) : bool :=
  match x with
  | S754_zero t | S754_infinity t | S754_finite t _ _ => Bool.eqb t s
  | S754_nan => false
  end.

(** The sign bit of a number. *)
Definition sign_bit (x : float) : bool :=
  match x with
  | S754_zero t | S754_infinity t | S754_finite t _ _ => t
  | S754_nan => false
  end.

(** A request for more shares than a float can count. *)
Definition huge_quantity : dict := trade "BUY" (VInt (10 ^ 400)).

(** A request whose quantity is not a number. *)
Definition text_quantity : dict := trade "BUY" (VStr "ten").

(** A request whose price is the text "nan". *)
Definition nan_price : dict := <[ "price" := VStr "nan" ]> (trade "SELL" (VInt 10)).

(** The same trade as [trade "BUY" (VInt 10)], written loosely: numbers as
    text, no symbol, and a field named like a derived one. *)
Definition loose_trade : dict :=
  {[ "action" := VStr "BUY"; "price" := VStr "100.0";
     "quantity" := VStr " 10 "; "fill_price" := VInt 1 ]}.

(** * Properties *)

Arguments F64.add : simpl never.
Arguments F64.sub : simpl never.
Arguments F64.mul : simpl never.
Arguments F64.of_Z : simpl never.
Arguments F64.round_ndigits : simpl never.
Arguments py_float : simpl never.
Arguments py_int : simpl never.

Lemma float_of_int_1 : float_of_int 1 = Ok f_1_0.
Proof. reflexivity. Qed.

Lemma float_of_int_neg_1 : float_of_int (-1) = Ok f_neg_1_0.
Proof. reflexivity. Qed.

(** [1 + slippage_pct] and [1 - slippage_pct] are the doubles written
    [1.001] and [0.999]. *)
Lemma one_plus_slippage : F64.add f_1_0 slippage_pct = f_1_001.
Proof. vm_compute. reflexivity. Qed.

Lemma one_minus_slippage : F64.sub f_1_0 slippage_pct = f_0_999.
Proof. vm_compute. reflexivity. Qed.

(** *** Running the monad *)

Lemma bind_Ret {A B} (c : M A) (k : A -> M B) w a w1 :
  c w = (Ret a, w1) -> bind c k w = k a w1.
Proof. intros H. unfold bind. rewrite H. reflexivity. Qed.

Lemma bind_Raise {A B} (c : M A) (k : A -> M B) w e w1 :
  c w = (Raise e, w1) -> bind c k w = (Raise e, w1).
Proof. intros H. unfold bind. rewrite H. reflexivity. Qed.

Lemma bind_assoc {A B C} (c : M A) (k : A -> M B) (k' : B -> M C) w :
  bind (bind c k) k' w = bind c (fun a => bind (k a) k') w.
Proof. unfold bind. destruct (c w) as [[a | e |] w1]; reflexivity. Qed.

Lemma dict_get_eq w l d key v :
  heap w !! l = Some d -> dict_get l key v w = (Ret (default v (d !! key)), w).
Proof. intros H. unfold dict_get. rewrite H. reflexivity. Qed.

Lemma lift_Ok {A} (r : result A) a w : r = Ok a -> lift r w = (Ret a, w).
Proof. intros ->. reflexivity. Qed.


Lemma int_mul_float_Ok z x qf w :
  float_of_int z = Ok qf -> int_mul_float z x w = (Ret (F64.mul qf x), w).
Proof. intros H. unfold int_mul_float. rewrite H. reflexivity. Qed.


Lemma float_mul_int_Ok z x qf w :
  float_of_int z = Ok qf -> float_mul_int x z w = (Ret (F64.mul x qf), w).
Proof. intros H. unfold float_mul_int. rewrite H. reflexivity. Qed.

Lemma factor_eq action w :
  (if eq_str action "BUY" then int_add_float 1 slippage_pct
   else int_sub_float 1 slippage_pct) w = (Ret (factor_of action), w).
Proof.
  unfold factor_of. rewrite <- one_plus_slippage, <- one_minus_slippage.
  destruct (eq_str action "BUY"); reflexivity.
Qed.

Lemma execution_cost_eq price qf quantity action w :
  float_of_int quantity = Ok qf ->
  (if eq_str action "BUY" then
     let* gross := float_mul_int (fill_price_of price action) quantity in
     ret (F64.add gross (total_fee_of qf))
   else
     let* gross := float_mul_int (fill_price_of price action) quantity in
     int_mul_float (-1) (F64.sub gross (total_fee_of qf))) w
  = (Ret (execution_cost_of price qf action), w).
Proof.
  intros Hq. unfold execution_cost_of.
  destruct (eq_str action "BUY");
    rewrite (bind_Ret _ _ _ _ _ (float_mul_int_Ok _ _ _ _ Hq)); reflexivity.
Qed.

Lemma logger_call_ref lv msg h r lg :
  logger_call lv msg [ORef (length h)] (World (h ++ [r]) lg)
  = (Ret tt, World (h ++ [r]) (lg ++ [LogRecord lv msg [LogDict r]])).
Proof.
  unfold logger_call. cbn [heap logs mapM snapshot].
  rewrite list_lookup_middle by reflexivity. reflexivity.
Qed.

Lemma dict_merge_eq h message d r lg :
  h !! message = Some d ->
  dict_merge message (length h) (World (h ++ [r]) lg)
  = (Ret (S (length h)), World (h ++ [r; r ∪ d]) lg).
Proof.
  intros H. unfold dict_merge, new_dict. cbn [heap logs].
  rewrite (lookup_app_l_Some _ _ _ _ H).
  rewrite list_lookup_middle by reflexivity.
  rewrite length_app, Nat.add_1_r, <- app_assoc. reflexivity.
Qed.

Section Simulate.

Variables (w : world) (message : loc) (d : dict).
Hypothesis Hmessage : heap w !! message = Some d.

Ltac read_fields :=
  unfold simulate_execution;
  do 3 (erewrite bind_Ret by (apply dict_get_eq, Hmessage));
  fold (symbol_of d) (action_of d) (price_of d).




Lemma simulate_returns p q qf :
  py_float (price_of d) = Ok p ->
  py_int (quantity_of d) = Ok q ->
  float_of_int q = Ok qf ->
  simulate_execution message w =
    (Ret (S (length (heap w))), world_after w d p qf q).
Proof.
  intros Hp Hq Hf. read_fields.
  rewrite (bind_Ret _ _ _ _ _ (lift_Ok _ _ _ Hp)).
  erewrite bind_Ret by (apply dict_get_eq, Hmessage).
  fold (quantity_of d).
  rewrite (bind_Ret _ _ _ _ _ (lift_Ok _ _ _ Hq)).
  erewrite bind_Ret by reflexivity.
  rewrite (bind_Ret _ _ _ _ _ (factor_eq _ _)).
  fold (fill_price_of p (action_of d)).
  rewrite (bind_Ret _ _ _ _ _ (int_mul_float_Ok _ _ _ _ Hf)).
  fold (total_fee_of qf).
  rewrite (bind_Ret _ _ _ _ _ (execution_cost_eq _ _ _ _ _ Hf)).
  erewrite bind_Ret by reflexivity.
  cbn [heap logs].
  rewrite (bind_Ret _ _ _ _ _ (logger_call_ref _ _ _ _ _)).
  rewrite (dict_merge_eq _ _ _ _ _ Hmessage).
  unfold world_after, info_record, debug_record.
  rewrite <- app_assoc. reflexivity.
Qed.

End Simulate.

(** *** The record [simulate_execution] returns *)

Lemma world_after_output w d p qf q :
  heap (world_after w d p qf q) !! S (length (heap w)) = Some (result_of d p qf ∪ d).
Proof.
  unfold world_after. cbn [heap].
  rewrite lookup_app_r by lia.
  replace (S (length (heap w)) - length (heap w))%nat with 1%nat by lia.
  reflexivity.
Qed.

Lemma world_after_frame w d p qf q l0 d0 :
  heap w !! l0 = Some d0 -> heap (world_after w d p qf q) !! l0 = Some d0.
Proof. intros H. unfold world_after. cbn [heap]. apply lookup_app_l_Some, H. Qed.


Lemma result_dict_dom a b c action : dom (result_dict a b c action) = derived_fields.
Proof.
  unfold result_dict, derived_fields.
  rewrite !dom_insert_L, dom_singleton_L. set_solver.
Qed.

Lemma result_dict_fill_price a b c action :
  result_dict a b c action !! "fill_price" = Some (VFloat (F64.round_ndigits a 4)).
Proof. reflexivity. Qed.

Lemma result_dict_slippage_pct a b c action :
  result_dict a b c action !! "slippage_pct" = Some (VFloat slippage_pct).
Proof. reflexivity. Qed.

Lemma result_dict_execution_fee a b c action :
  result_dict a b c action !! "execution_fee" = Some (VFloat (F64.round_ndigits b 4)).
Proof. reflexivity. Qed.

Lemma result_dict_execution_cost a b c action :
  result_dict a b c action !! "execution_cost" = Some (VFloat (F64.round_ndigits c 4)).
Proof. reflexivity. Qed.

Lemma result_dict_status a b c action :
  result_dict a b c action !! "status" =
    Some (VStr (if eq_str action "BUY" || eq_str action "SELL"
                then "executed" else "noop")).
Proof. reflexivity. Qed.

(** A derived field of the output is the one of [result]. *)
Lemma output_derived (r d : dict) k v : r !! k = Some v -> (r ∪ d) !! k = Some v.
Proof. apply lookup_union_Some_l. Qed.

(** Any other field of the output is the one of the message. *)
Lemma output_other a b c action (d : dict) k :
  k ∉ derived_fields -> (result_dict a b c action ∪ d) !! k = d !! k.
Proof.
  intros Hk. apply lookup_union_r, not_elem_of_dom.
  rewrite result_dict_dom. exact Hk.
Qed.

Lemma eq_str_action (d : dict) s :
  eq_str (action_of d) s = true <->
  d !! "action" = Some (VStr s) \/ (d !! "action" = None /\ s = "HOLD").
Proof.
  unfold action_of, eq_str.
  destruct (d !! "action") as [[]|]; simpl;
    rewrite ?bool_decide_eq_true; split;
    try (intros [? | [? ?]]); try intros ?;
    try discriminate; try congruence; auto.
  - left. congruence.
Qed.

Lemma eq_str_action_BUY (d : dict) :
  eq_str (action_of d) "BUY" = true <-> d !! "action" = Some (VStr "BUY").
Proof.
  rewrite eq_str_action. split; [ intros [? | [_ ?]] | auto ];
    [ assumption | discriminate ].
Qed.

Lemma eq_str_action_SELL (d : dict) :
  eq_str (action_of d) "SELL" = true <-> d !! "action" = Some (VStr "SELL").
Proof.
  rewrite eq_str_action. split; [ intros [? | [_ ?]] | auto ];
    [ assumption | discriminate ].
Qed.

(** ** The simulated execution *)

Section Claims.

Variables (w : world) (message : loc) (d : dict).
Variables (p : float) (q : Z) (qf : float).
Hypothesis Hmessage : heap w !! message = Some d.
Hypothesis Hprice : py_float (price_of d) = Ok p.
Hypothesis Hquantity : py_int (quantity_of d) = Ok q.
Hypothesis Hfloat : float_of_int q = Ok qf.

Lemma simulate_output :
  simulate_execution message w = (Ret (S (length (heap w))), world_after w d p qf q)
  /\ heap (world_after w d p qf q) !! S (length (heap w)) = Some (result_of d p qf ∪ d).
Proof.
  split; [ apply simulate_returns; assumption | apply world_after_output ].
Qed.

Ltac give_output :=
  exists (S (length (heap w))), (world_after w d p qf q), (result_of d p qf ∪ d);
  split; [ apply simulate_output | split; [ apply simulate_output | ] ].

Ltac by_action :=
  unfold execution_cost_of, fill_price_of, factor_of, total_fee_of;
  match goal with
  | H : d !! "action" = Some (VStr "BUY") |- _ =>
      rewrite (proj2 (eq_str_action_BUY d) H)
  | H : d !! "action" <> Some (VStr "BUY") |- _ =>
      destruct (eq_str (action_of d) "BUY") eqn:Hbuy;
      [ exfalso; apply H, eq_str_action_BUY, Hbuy | ]
  end.

(** C2: a message whose action is "BUY" is filled at
    [round(price * 1.001, 4)], and any other message (action "SELL",
    "HOLD", missing or anything else) at [round(price * 0.999, 4)], where
    [price] is the price of the message as a float. *)
Theorem fill_price_is_rounded_slipped_price :
  exists l w' out,
    simulate_execution message w = (Ret l, w') /\ heap w' !! l = Some out /\
    (d !! "action" = Some (VStr "BUY") ->
     out !! "fill_price" = Some (VFloat (F64.round_ndigits (F64.mul p f_1_001) 4))) /\
    (d !! "action" <> Some (VStr "BUY") ->
     out !! "fill_price" = Some (VFloat (F64.round_ndigits (F64.mul p f_0_999) 4))).
Proof.
  give_output.
  split; intros Ha; apply output_derived; unfold result_of;
    rewrite result_dict_fill_price; by_action; reflexivity.
Qed.

(** C3: with [total_fee = quantity * 0.005] and the unrounded fill price,
    the execution cost of a "BUY" is
    [round(fill_price * quantity + total_fee, 4)] and that of every other
    message is [round(-1 * (fill_price * quantity - total_fee), 4)]. *)
Theorem execution_cost_is_rounded_signed_cost :
  let total_fee := F64.mul qf f_0_005 in
  exists l w' out,
    simulate_execution message w = (Ret l, w') /\ heap w' !! l = Some out /\
    (d !! "action" = Some (VStr "BUY") ->
     let fill_price := F64.mul p f_1_001 in
     out !! "execution_cost" =
       Some (VFloat (F64.round_ndigits
                       (F64.add (F64.mul fill_price qf) total_fee) 4))) /\
    (d !! "action" <> Some (VStr "BUY") ->
     let fill_price := F64.mul p f_0_999 in
     out !! "execution_cost" =
       Some (VFloat (F64.round_ndigits
                       (F64.mul f_neg_1_0
                          (F64.sub (F64.mul fill_price qf) total_fee)) 4))).
Proof.
  intros total_fee. give_output.
  split; intros Ha fill_price; apply output_derived; unfold result_of;
    rewrite result_dict_execution_cost; by_action; reflexivity.
Qed.

(** C4: the status is "executed" exactly when the action is "BUY" or
    "SELL", and "noop" for every other message. *)
Theorem status_executed_iff_trade :
  let traded :=
    d !! "action" = Some (VStr "BUY") \/ d !! "action" = Some (VStr "SELL") in
  exists l w' out,
    simulate_execution message w = (Ret l, w') /\ heap w' !! l = Some out /\
    (out !! "status" = Some (VStr "executed") <-> traded) /\
    (~ traded -> out !! "status" = Some (VStr "noop")).
Proof.
  intros traded. give_output.
  assert (Hst : (result_of d p qf ∪ d) !! "status" =
                Some (VStr (if eq_str (action_of d) "BUY" || eq_str (action_of d) "SELL"
                            then "executed" else "noop"))).
  { apply output_derived, result_dict_status. }
  rewrite Hst. unfold traded.
  rewrite <- eq_str_action_BUY, <- eq_str_action_SELL, <- orb_true_iff.
  destruct (eq_str (action_of d) "BUY" || eq_str (action_of d) "SELL");
    split; try split; try intros ?; try reflexivity; try discriminate;
    try contradiction; try congruence.
Qed.

(** C5: the execution fee is [round(quantity * 0.005, 4)], and the
    quantity of a message that has none is 0. *)
Theorem execution_fee_is_rounded_fee :
  exists l w' out,
    simulate_execution message w = (Ret l, w') /\ heap w' !! l = Some out /\
    out !! "execution_fee" =
      Some (VFloat (F64.round_ndigits (F64.mul qf f_0_005) 4)) /\
    (d !! "quantity" = None -> q = 0).
Proof.
  give_output. split.
  - apply output_derived, result_dict_execution_fee.
  - intros Hnone. unfold quantity_of in Hquantity. rewrite Hnone in Hquantity.
    simpl in Hquantity. cbv [py_int] in Hquantity. congruence.
Qed.

(** C7: the output is a new dict object whose fields are those of the
    message and the five derived fields; a derived field holds the value
    computed for it whatever the message held under that name, every other
    field is the one of the message, and no object that existed before the
    call, the message among them, has changed. *)
Theorem output_is_fresh_merge :
  exists l w' out,
    simulate_execution message w = (Ret l, w') /\ heap w' !! l = Some out /\
    heap w !! l = None /\
    dom out = dom d ∪ derived_fields /\
    (forall k, k ∈ derived_fields ->
       is_Some (result_of d p qf !! k) /\ out !! k = result_of d p qf !! k) /\
    (forall k, k ∉ derived_fields -> out !! k = d !! k) /\
    (forall l0 d0, heap w !! l0 = Some d0 -> heap w' !! l0 = Some d0).
Proof.
  give_output.
  split; [ apply lookup_ge_None_2; lia | ].
  split; [ unfold result_of; rewrite dom_union_L, result_dict_dom; apply (comm_L (∪)) | ].
  split; [ | split ].
  - intros k Hk.
    assert (Hs : is_Some (result_of d p qf !! k)).
    { apply elem_of_dom. unfold result_of. rewrite result_dict_dom. exact Hk. }
    split; [ exact Hs | ].
    destruct Hs as [v Hv]. rewrite Hv. apply output_derived, Hv.
  - intros k Hk. apply output_other, Hk.
  - intros l0 d0. apply world_after_frame.
Qed.

End Claims.

Lemma fill_price_witness :
  exists l w' out,
    simulate_execution 0%nat (World [trade "BUY" (VInt 10)] []) = (Ret l, w') /\
    heap w' !! l = Some out /\
    (trade "BUY" (VInt 10) !! "action" = Some (VStr "BUY") ->
     out !! "fill_price" =
       Some (VFloat (F64.round_ndigits (F64.mul f_100_0 f_1_001) 4))) /\
    (trade "BUY" (VInt 10) !! "action" <> Some (VStr "BUY") ->
     out !! "fill_price" =
       Some (VFloat (F64.round_ndigits (F64.mul f_100_0 f_0_999) 4))).
Proof.
  apply (fill_price_is_rounded_slipped_price
           (World [trade "BUY" (VInt 10)] []) 0%nat _ f_100_0 10 f_10_0);
    reflexivity.
Defined.

Lemma execution_cost_witness :
  let total_fee := F64.mul f_10_0 f_0_005 in
  exists l w' out,
    simulate_execution 0%nat (World [trade "SELL" (VInt 10)] []) = (Ret l, w') /\
    heap w' !! l = Some out /\
    (trade "SELL" (VInt 10) !! "action" = Some (VStr "BUY") ->
     let fill_price := F64.mul f_100_0 f_1_001 in
     out !! "execution_cost" =
       Some (VFloat (F64.round_ndigits
                       (F64.add (F64.mul fill_price f_10_0) total_fee) 4))) /\
    (trade "SELL" (VInt 10) !! "action" <> Some (VStr "BUY") ->
     let fill_price := F64.mul f_100_0 f_0_999 in
     out !! "execution_cost" =
       Some (VFloat (F64.round_ndigits
                       (F64.mul f_neg_1_0
                          (F64.sub (F64.mul fill_price f_10_0) total_fee)) 4))).
Proof.
  apply (execution_cost_is_rounded_signed_cost
           (World [trade "SELL" (VInt 10)] []) 0%nat _ f_100_0 10 f_10_0);
    reflexivity.
Defined.

Lemma status_witness :
  let traded :=
    trade "HOLD" (VInt 10) !! "action" = Some (VStr "BUY") \/
    trade "HOLD" (VInt 10) !! "action" = Some (VStr "SELL") in
  exists l w' out,
    simulate_execution 0%nat (World [trade "HOLD" (VInt 10)] []) = (Ret l, w') /\
    heap w' !! l = Some out /\
    (out !! "status" = Some (VStr "executed") <-> traded) /\
    (~ traded -> out !! "status" = Some (VStr "noop")).
Proof.
  apply (status_executed_iff_trade
           (World [trade "HOLD" (VInt 10)] []) 0%nat _ f_100_0 10 f_10_0);
    reflexivity.
Defined.

Lemma execution_fee_witness :
  exists l w' out,
    simulate_execution 0%nat (World [trade "BUY" (VInt 10)] []) = (Ret l, w') /\
    heap w' !! l = Some out /\
    out !! "execution_fee" =
      Some (VFloat (F64.round_ndigits (F64.mul f_10_0 f_0_005) 4)) /\
    (trade "BUY" (VInt 10) !! "quantity" = None -> 10 = 0).
Proof.
  apply (execution_fee_is_rounded_fee
           (World [trade "BUY" (VInt 10)] []) 0%nat _ f_100_0 10 f_10_0);
    reflexivity.
Defined.

Lemma output_merge_witness :
  exists l w' out,
    simulate_execution 1%nat (World [∅; colliding] []) = (Ret l, w') /\
    heap w' !! l = Some out /\
    heap (World [∅; colliding] []) !! l = None /\
    dom out = dom colliding ∪ derived_fields /\
    (forall k, k ∈ derived_fields ->
       is_Some (result_of colliding f_100_0 f_10_0 !! k) /\
       out !! k = result_of colliding f_100_0 f_10_0 !! k) /\
    (forall k, k ∉ derived_fields -> out !! k = colliding !! k) /\
    (forall l0 d0, heap (World [∅; colliding] []) !! l0 = Some d0 ->
                   heap w' !! l0 = Some d0).
Proof.
  apply (output_is_fresh_merge
           (World [∅; colliding] []) 1%nat _ f_100_0 10 f_10_0);
    reflexivity.
Defined.

(** ** The scenarios of the specification *)

(** Ten shares at 100.0: bought at 100.1 for 1001.05, sold at 99.9 for
    -998.95, held with status "noop"; the fee is 0.05 each time. *)
Example scenario_buy :
  let d := trade "BUY" (VInt 10) in
  exists out,
    run_simulate d = Ret out /\
    out !! "fill_price" = Some (VFloat (F64.of_decimal false 1001 (-1))) /\
    out !! "execution_fee" = Some (VFloat (F64.of_decimal false 5 (-2))) /\
    out !! "execution_cost" = Some (VFloat (F64.of_decimal false 100105 (-2))) /\
    out !! "status" = Some (VStr "executed").
Proof.
  intros d. exists (result_of d f_100_0 f_10_0 ∪ d). vm_compute. repeat split.
Qed.

Example scenario_sell :
  let d := trade "SELL" (VInt 10) in
  exists out,
    run_simulate d = Ret out /\
    out !! "fill_price" = Some (VFloat (F64.of_decimal false 999 (-1))) /\
    out !! "execution_fee" = Some (VFloat (F64.of_decimal false 5 (-2))) /\
    out !! "execution_cost" = Some (VFloat (F64.of_decimal true 99895 (-2))) /\
    out !! "status" = Some (VStr "executed").
Proof.
  intros d. exists (result_of d f_100_0 f_10_0 ∪ d). vm_compute. repeat split.
Qed.

Example scenario_hold :
  let d := trade "HOLD" (VInt 10) in
  exists out,
    run_simulate d = Ret out /\
    out !! "fill_price" = Some (VFloat (F64.of_decimal false 999 (-1))) /\
    out !! "execution_fee" = Some (VFloat (F64.of_decimal false 5 (-2))) /\
    out !! "status" = Some (VStr "noop").
Proof.
  intros d. exists (result_of d f_100_0 f_10_0 ∪ d). vm_compute. repeat split.
Qed.

(** ** The empty message *)

(** C1, as the code has it: on [{}] the defaults "UNKNOWN", "HOLD", 100.0
    and 0 are read (the call on the logger shows three of them, the fill
    price the fourth) but are not fields of the output, which holds the five
    derived fields only: fill price 99.9, fee 0.0, status "noop", and an
    execution cost of -0.0, the quantity being 0. *)
Theorem empty_message_output :
  simulate_execution 0%nat (World [∅] []) =
    (Ret 2%nat,
     World [∅; empty_result; empty_result]
       [info_record (VStr "HOLD") 0 (VStr "UNKNOWN"); debug_record empty_result])
  /\ run_simulate ∅ = Ret empty_result
  /\ F64.round_ndigits (F64.mul f_100_0 f_0_999) 4 = f_99_9.
Proof. vm_compute. auto. Qed.

(** C1 as stated fails: the output of [{}] has no "symbol", "action",
    "price" or "quantity", and its execution cost is -0.0, which is not
    -99.9. *)
Lemma empty_message_has_no_defaults_and_zero_cost :
  exists out,
    run_simulate ∅ = Ret out /\
    out !! "symbol" = None /\ out !! "action" = None /\
    out !! "price" = None /\ out !! "quantity" = None /\
    out !! "execution_cost" = Some (VFloat f_neg_0_0) /\
    F64.eqb f_neg_0_0 f_neg_99_9 = false.
Proof. exists empty_result. vm_compute. repeat split. Qed.

(** ** Prices that are not numbers *)




(** ** Fractional quantities *)

Lemma trunc_exact x n den :
  F64.exact x = Some (n, den) -> F64.trunc x = Some (Z.quot n den).
Proof.
  destruct x as [s | s | | s m e]; simpl; try discriminate.
  - intros [= <- <-]. reflexivity.
  - destruct (0 <=? e); intros [= <- <-]; [ rewrite Z.quot_1_r | ]; reflexivity.
Qed.

(** C10: a quantity given as a finite float of exact value [n / den] is
    replaced by the integer [n / den] rounded toward zero in the fee and in
    the execution cost, while the "quantity" of the output is still the
    float of the message. *)
Theorem float_quantity_is_truncated w message (d : dict) f n den p qf :
  heap w !! message = Some d ->
  d !! "quantity" = Some (VFloat f) ->
  F64.exact f = Some (n, den) ->
  py_float (price_of d) = Ok p ->
  float_of_int (Z.quot n den) = Ok qf ->
  let total_fee := F64.mul qf f_0_005 in
  let fill_price := F64.mul p (factor_of (action_of d)) in
  py_int (quantity_of d) = Ok (Z.quot n den) /\
  exists l w' out,
    simulate_execution message w = (Ret l, w') /\ heap w' !! l = Some out /\
    out !! "quantity" = Some (VFloat f) /\
    out !! "execution_fee" = Some (VFloat (F64.round_ndigits total_fee 4)) /\
    out !! "execution_cost" =
      Some (VFloat (F64.round_ndigits
                      (if eq_str (action_of d) "BUY"
                       then F64.add (F64.mul fill_price qf) total_fee
                       else F64.mul f_neg_1_0
                              (F64.sub (F64.mul fill_price qf) total_fee)) 4)).
Proof.
  intros Hm Hqty Hex Hp Hf total_fee fill_price.
  assert (Hq : py_int (quantity_of d) = Ok (Z.quot n den)).
  { unfold quantity_of. rewrite Hqty. cbv [default from_option id py_int].
    rewrite (trunc_exact _ _ _ Hex). reflexivity. }
  split; [ exact Hq | ].
  exists (S (length (heap w))), (world_after w d p qf (Z.quot n den)),
    (result_of d p qf ∪ d).
  split; [ apply (simulate_returns _ _ _ Hm _ _ _ Hp Hq Hf) | ].
  split; [ apply world_after_output | ].
  split; [ | split ].
  - unfold result_of. rewrite output_other; [ exact Hqty | ].
    unfold derived_fields.
    rewrite !not_elem_of_union, !not_elem_of_singleton.
    repeat split; discriminate.
  - apply output_derived, result_dict_execution_fee.
  - apply output_derived. unfold result_of.
    rewrite result_dict_execution_cost. reflexivity.
Qed.

(** [int(10.9)] is 10, and [int(-10.9)] is -10. *)
Example int_of_10_9 :
  py_int (VFloat f_10_9) = Ok 10 /\ py_int (VFloat (SFopp f_10_9)) = Ok (-10).
Proof. vm_compute. auto. Qed.

Lemma float_quantity_witness :
  py_int (quantity_of (trade "BUY" (VFloat f_10_9))) = Ok 10 /\
  exists l w' out,
    simulate_execution 0%nat (World [trade "BUY" (VFloat f_10_9)] []) = (Ret l, w') /\
    heap w' !! l = Some out /\
    out !! "quantity" = Some (VFloat f_10_9) /\
    out !! "execution_fee" =
      Some (VFloat (F64.round_ndigits (F64.mul f_10_0 f_0_005) 4)) /\
    out !! "execution_cost" =
      Some (VFloat (F64.round_ndigits
                      (F64.add (F64.mul (F64.mul f_100_0 f_1_001) f_10_0)
                         (F64.mul f_10_0 f_0_005)) 4)).
Proof.
  exact (float_quantity_is_truncated
           (World [trade "BUY" (VFloat f_10_9)] []) 0%nat
           (trade "BUY" (VFloat f_10_9)) f_10_9
           6136154492292301 562949953421312 f_100_0 f_10_0
           eq_refl eq_refl eq_refl eq_refl eq_refl).
Defined.

(** ** Validation *)

Section Validation.

Variable schema : dict -> bool.
Variables (w : world) (message : loc) (d : dict).
Hypothesis Hmessage : heap w !! message = Some d.

Lemma call_schema_eq w0 :
  heap w0 = heap w ->
  call_validate_message_schema schema message w0 = (Ret (schema d), w0).
Proof.
  intros Hh. unfold call_validate_message_schema. rewrite Hh, Hmessage. reflexivity.
Qed.

Lemma validate_rejects :
  schema d = false ->
  validate_input_message schema message w =
    (Raise invalid_format,
     World (heap w) (logs w ++ [validating_record; invalid_record d])).
Proof.
  intros Hs. unfold validate_input_message.
  erewrite bind_Ret by reflexivity.
  erewrite bind_Ret by (apply call_schema_eq; reflexivity).
  rewrite Hs. cbn [negb].
  unfold bind, logger_call. cbn [heap logs mapM snapshot].
  rewrite Hmessage. cbn. rewrite <- app_assoc. reflexivity.
Qed.

Lemma validate_accepts :
  schema d = true ->
  validate_input_message schema message w =
    (Ret message, World (heap w) (logs w ++ [validating_record])).
Proof.
  intros Hs. unfold validate_input_message.
  erewrite bind_Ret by reflexivity.
  erewrite bind_Ret by (apply call_schema_eq; reflexivity).
  rewrite Hs. reflexivity.
Qed.

(** C6, as the code has it: a message the schema check fails is rejected
    with [ValueError("Invalid message format")], whose only argument is
    that text; the contents of the message go to the error entry of the log;
    and nothing that was to run on the validated message, the simulation
    included, runs. *)
Theorem invalid_message_is_rejected :
  schema d = false ->
  let w' := World (heap w) (logs w ++ [validating_record; invalid_record d]) in
  validate_input_message schema message w = (Raise invalid_format, w') /\
  exn_args invalid_format = [OVal (VStr "Invalid message format")] /\
  (let* validated := validate_input_message schema message in
   simulate_execution validated) w = (Raise invalid_format, w') /\
  forall B (k : loc -> M B),
    (let* validated := validate_input_message schema message in k validated) w
    = (Raise invalid_format, w').
Proof.
  intros Hs w'. pose proof (validate_rejects Hs) as Hv.
  split; [ exact Hv | ]. split; [ reflexivity | ].
  split; [ | intros B k ]; apply bind_Raise, Hv.
Qed.

(** C8: a message that passes the schema check is returned as it is, the
    same object with the same contents, and validating what was returned
    returns it again. *)
Theorem valid_message_is_returned_unchanged :
  schema d = true ->
  validate_input_message schema message w =
    (Ret message, World (heap w) (logs w ++ [validating_record]))
  /\ (let* validated := validate_input_message schema message in
      validate_input_message schema validated) w =
       (Ret message,
        World (heap w) (logs w ++ [validating_record; validating_record])).
Proof.
  intros Hs. pose proof (validate_accepts Hs) as Hv.
  split; [ exact Hv | ].
  rewrite (bind_Ret _ _ _ _ _ Hv).
  unfold validate_input_message.
  erewrite bind_Ret by reflexivity.
  erewrite bind_Ret by (apply call_schema_eq; reflexivity).
  rewrite Hs. cbn [negb heap logs]. unfold ret.
  rewrite <- app_assoc. reflexivity.
Qed.

End Validation.

(** C6 as stated fails: the error raised for a message that fails the
    schema check does not carry the message. *)
Lemma rejection_does_not_carry_message :
  spec_message_schema text_price = false /\
  ~ exists e w',
      validate_input_message spec_message_schema 0%nat (World [text_price] [])
        = (Raise e, w') /\ carries e 0%nat.
Proof.
  split; [ reflexivity | ].
  intros (e & w' & Hrun & Hc).
  rewrite (validate_rejects spec_message_schema (World [text_price] []) 0%nat
             text_price eq_refl eq_refl) in Hrun.
  injection Hrun as <- _.
  unfold carries, invalid_format, exn_of in Hc. cbn [exn_args] in Hc.
  apply list_elem_of_singleton in Hc. discriminate.
Qed.

Lemma invalid_message_witness :
  let w' := World [text_price] [validating_record; invalid_record text_price] in
  validate_input_message spec_message_schema 0%nat (World [text_price] [])
    = (Raise invalid_format, w') /\
  exn_args invalid_format = [OVal (VStr "Invalid message format")] /\
  (let* validated := validate_input_message spec_message_schema 0%nat in
   simulate_execution validated) (World [text_price] []) = (Raise invalid_format, w') /\
  forall B (k : loc -> M B),
    (let* validated := validate_input_message spec_message_schema 0%nat in
     k validated) (World [text_price] [])
    = (Raise invalid_format, w').
Proof.
  exact (invalid_message_is_rejected spec_message_schema
           (World [text_price] []) 0%nat text_price eq_refl eq_refl).
Defined.

Lemma valid_message_witness :
  validate_input_message spec_message_schema 0%nat
    (World [trade "BUY" (VInt 10)] []) =
    (Ret 0%nat, World [trade "BUY" (VInt 10)] [validating_record])
  /\ (let* validated := validate_input_message spec_message_schema 0%nat in
      validate_input_message spec_message_schema validated)
       (World [trade "BUY" (VInt 10)] []) =
       (Ret 0%nat,
        World [trade "BUY" (VInt 10)] [validating_record; validating_record]).
Proof.
  exact (valid_message_is_returned_unchanged spec_message_schema
           (World [trade "BUY" (VInt 10)] []) 0%nat (trade "BUY" (VInt 10))
           eq_refl eq_refl).
Defined.

(** ** Signs of the computed numbers *)

Lemma shr_1_nonneg mrs : 0 <= shr_m mrs -> 0 <= shr_m (shr_1 mrs).
Proof.
  destruct mrs as [m r t]. cbn [shr_m].
  destruct m as [ | [ p | p | ] | p ]; cbn; lia.
Qed.

Lemma iter_shr_1_nonneg n : forall mrs,
  0 <= shr_m mrs -> 0 <= shr_m (SpecFloat.iter_pos shr_1 n mrs).
Proof.
  induction n as [ n IH | n IH | ]; intros mrs H; cbn [SpecFloat.iter_pos].
  - apply IH, IH, shr_1_nonneg, H.
  - apply IH, IH, H.
  - apply shr_1_nonneg, H.
Qed.

Lemma shr_fexp_nonneg m e l :
  0 <= m -> 0 <= shr_m (fst (shr_fexp F64.prec F64.emax m e l)).
Proof.
  intros H. unfold shr_fexp, shr.
  assert (H0 : 0 <= shr_m (shr_record_of_loc m l)).
  { destruct l as [ | [ | | ] ]; exact H. }
  destruct (fexp F64.prec F64.emax (Zdigits2 m + e) - e); cbn [fst];
    [ exact H0 | apply iter_shr_1_nonneg, H0 | exact H0 ].
Qed.

Lemma round_nearest_even_nonneg m l : 0 <= m -> 0 <= round_nearest_even m l.
Proof.
  intros H. unfold round_nearest_even.
  destruct l as [ | [ | | ] ]; try destruct (Z.even m); lia.
Qed.

(** Rounding a non-negative mantissa gives a number of the sign asked
    for, never a NaN. *)
Lemma binary_round_aux_sign s m e l :
  0 <= m -> has_sign s (binary_round_aux F64.prec F64.emax s m e l) = true.
Proof.
  intros H. unfold binary_round_aux.
  pose proof (shr_fexp_nonneg m e l H) as H1.
  destruct (shr_fexp F64.prec F64.emax m e l) as [mrs' e'].
  cbn [fst] in H1.
  pose proof (shr_fexp_nonneg _ e' loc_Exact
                (round_nearest_even_nonneg _ (loc_of_shr_record mrs') H1)) as H2.
  destruct (shr_fexp F64.prec F64.emax _ e' loc_Exact) as [mrs'' e''].
  cbn [fst] in H2.
  destruct (shr_m mrs'') as [ | k | k ].
  - apply eqb_reflx.
  - destruct (e'' <=? F64.emax - F64.prec); apply eqb_reflx.
  - lia.
Qed.

Lemma of_ratio_sign s n d : has_sign s (F64.of_ratio s n d) = true.
Proof.
  unfold F64.of_ratio, SFdiv_core_binary.
  set (m' := match _ with Z0 => _ | Zpos _ => _ | Zneg _ => _ end).
  assert (Hm : 0 <= m').
  { subst m'. destruct (0 - 0 - _); [ lia | apply Z.shiftl_nonneg; lia | lia ]. }
  pose proof (Z.div_pos m' (Zpos d) Hm eq_refl) as Hq.
  unfold Z.div in Hq.
  destruct (Z.div_eucl m' (Zpos d)) as [q r].
  apply binary_round_aux_sign, Hq.
Qed.

Lemma of_decimal_sign s m e : has_sign s (F64.of_decimal s m e) = true.
Proof.
  unfold F64.of_decimal. destruct m as [ | k ].
  - apply eqb_reflx.
  - destruct (0 <=? e); apply of_ratio_sign.
Qed.

(** [round] keeps the sign of a number. *)
Lemma round_ndigits_sign s x nd :
  has_sign s x = true -> has_sign s (F64.round_ndigits x nd) = true.
Proof.
  intros H. destruct x as [ t | t | | t m e ]; try exact H.
  unfold F64.round_ndigits. destruct (323 <? nd)%N; [ exact H | ].
  cbn [has_sign] in H. apply eqb_prop in H. subst t. apply of_decimal_sign.
Qed.

(** The product with a finite non-zero number has the product of the
    signs. *)
Lemma mul_finite_sign sx x sy my ey :
  has_sign sx x = true ->
  has_sign (xorb sx sy) (F64.mul x (S754_finite sy my ey)) = true.
Proof.
  intros H. destruct x as [ t | t | | t m e ]; cbn [has_sign] in H;
    try discriminate; apply eqb_prop in H; subst t.
  - apply eqb_reflx.
  - apply eqb_reflx.
  - unfold F64.mul, SFmul. apply binary_round_aux_sign. lia.
Qed.

(** The product of two finite numbers has the product of the signs. *)
Lemma mul_sign sx x sy y :
  F64.is_finite x = true -> F64.is_finite y = true ->
  has_sign sx x = true -> has_sign sy y = true ->
  has_sign (xorb sx sy) (F64.mul x y) = true.
Proof.
  intros Fx Fy Hx Hy.
  destruct y as [ t | t | | t m e ]; try discriminate.
  - cbn [has_sign] in Hy. apply eqb_prop in Hy. subst t.
    destruct x as [ u | u | | u m e ]; try discriminate;
      cbn [has_sign] in Hx; apply eqb_prop in Hx; subst u; apply eqb_reflx.
  - cbn [has_sign] in Hy. apply eqb_prop in Hy. subst t.
    apply mul_finite_sign, Hx.
Qed.

(** The sum of two non-negative numbers is non-negative. *)
Lemma add_nonneg x y :
  has_sign false x = true -> has_sign false y = true ->
  has_sign false (F64.add x y) = true.
Proof.
  intros Hx Hy.
  destruct x as [ [] | [] | | [] mx ex ]; try discriminate;
    destruct y as [ [] | [] | | [] my ey ]; try discriminate;
    try reflexivity.
  unfold F64.add, SFadd, binary_normalize. cbn [cond_Zopp].
  rewrite <- Pos2Z.inj_add. unfold binary_round.
  destruct (shl_align (_ + _) _ _) as [mz ez].
  apply binary_round_aux_sign. lia.
Qed.

(** [float(n)] has the sign of [n]. *)
Lemma float_of_int_sign z x :
  float_of_int z = Ok x ->
  F64.is_finite x = true /\ has_sign (z <? 0) x = true.
Proof.
  unfold float_of_int. destruct (F64.is_finite (F64.of_Z z)) eqn:Hfin;
    [ | discriminate ].
  intros [= <-]. split; [ exact Hfin | ].
  unfold F64.of_Z, binary_normalize, binary_round.
  destruct z as [ | k | k ]; [ reflexivity | | ];
    destruct (shl_align _ _ _) as [mz ez];
    apply binary_round_aux_sign; lia.
Qed.

(** ** When the simulation returns, and what it leaves behind *)







(** A quantity that is not a number, and one of 10 ^ 400 shares. *)
Example quantity_error_samples :
  run_simulate text_quantity =
    Raise (exn_of ValueError "invalid literal for int() with base 10")
  /\ run_simulate huge_quantity =
       Raise (exn_of OverflowError "int too large to convert to float").
Proof. vm_compute. auto. Qed.

(** The fields [simulate_execution] reads are not derived fields, so the
    output holds them as the message does. *)
Lemma output_reads (d : dict) p qf :
  let out := result_of d p qf ∪ d in
  symbol_of out = symbol_of d /\ action_of out = action_of d /\
  price_of out = price_of d /\ quantity_of out = quantity_of d.
Proof.
  intros out. unfold symbol_of, action_of, price_of, quantity_of, out, result_of.
  rewrite !output_other; [ auto | | | | ]; unfold derived_fields;
    rewrite !not_elem_of_union, !not_elem_of_singleton;
    repeat split; discriminate.
Qed.

Lemma factor_of_finite action :
  exists m e, factor_of action = S754_finite false m e.
Proof.
  unfold factor_of. destruct (eq_str action "BUY"); eexists; eexists; reflexivity.
Qed.

Section Behaviour.

Variables (w : world) (message : loc) (d : dict).
Variables (p : float) (q : Z) (qf : float).
Hypothesis Hmessage : heap w !! message = Some d.
Hypothesis Hprice : py_float (price_of d) = Ok p.
Hypothesis Hquantity : py_int (quantity_of d) = Ok q.
Hypothesis Hfloat : float_of_int q = Ok qf.

Ltac returned :=
  exists (S (length (heap w))), (world_after w d p qf q), (result_of d p qf ∪ d);
  split; [ apply simulate_returns; assumption | ];
  split; [ apply world_after_output | ].

(** X4: a call that returns adds two dicts to the heap, [result], which
    has the five derived fields and nothing else, and then the merged
    output; and it logs two records, INFO with the action, the quantity as
    an integer and the symbol, then DEBUG with [result], not with the
    output. *)
Theorem simulate_effects :
  exists l w' result out,
    simulate_execution message w = (Ret l, w') /\
    heap w' = heap w ++ [result; out] /\
    l = S (length (heap w)) /\
    dom result = derived_fields /\
    out = result ∪ d /\
    logs w' =
      logs w ++ [info_record (action_of d) q (symbol_of d); debug_record result].
Proof.
  exists (S (length (heap w))), (world_after w d p qf q),
    (result_of d p qf), (result_of d p qf ∪ d).
  split; [ apply simulate_returns; assumption | ].
  split; [ reflexivity | ]. split; [ reflexivity | ].
  split; [ apply result_dict_dom | ]. split; reflexivity.
Qed.

(** X7: simulating the output again gives a record with the same
    contents, in another new object. *)
Theorem simulating_the_output_again :
  exists l w' out,
    simulate_execution message w = (Ret l, w') /\ heap w' !! l = Some out /\
    exists l2 w2,
      simulate_execution l w' = (Ret l2, w2) /\ heap w2 !! l2 = Some out /\
      l2 <> l.
Proof.
  returned.
  set (out := result_of d p qf ∪ d).
  set (w1 := world_after w d p qf q).
  destruct (output_reads d p qf) as (_ & Ha & Hp & Hq).
  fold out in Ha, Hp, Hq.
  assert (Hout : heap w1 !! S (length (heap w)) = Some out)
    by apply world_after_output.
  assert (Hp1 : py_float (price_of out) = Ok p) by (rewrite Hp; exact Hprice).
  assert (Hq1 : py_int (quantity_of out) = Ok q) by (rewrite Hq; exact Hquantity).
  exists (S (length (heap w1))), (world_after w1 out p qf q).
  split; [ apply (simulate_returns _ _ _ Hout _ _ _ Hp1 Hq1 Hfloat) | ].
  split.
  - rewrite world_after_output. f_equal.
    unfold result_of. rewrite Ha. fold (result_of d p qf).
    unfold out. rewrite (assoc_L (∪)), (idemp_L (∪)). reflexivity.
  - unfold w1, world_after. cbn [heap]. rewrite length_app. cbn [length]. lia.
Qed.

(** X10: the fill price is a number of the sign of the price: a price
    that is not a NaN never gives a NaN or a fill price of the other
    sign. *)
Theorem fill_price_has_sign_of_price s :
  has_sign s p = true ->
  exists l w' out x,
    simulate_execution message w = (Ret l, w') /\ heap w' !! l = Some out /\
    out !! "fill_price" = Some (VFloat x) /\ has_sign s x = true.
Proof.
  intros Hs.
  exists (S (length (heap w))), (world_after w d p qf q), (result_of d p qf ∪ d),
    (F64.round_ndigits (fill_price_of p (action_of d)) 4).
  split; [ apply simulate_returns; assumption | ].
  split; [ apply world_after_output | ].
  split; [ apply output_derived, result_dict_fill_price | ].
  apply round_ndigits_sign. unfold fill_price_of.
  destruct (factor_of_finite (action_of d)) as (m & e & ->).
  rewrite <- (xorb_false_r s). apply mul_finite_sign, Hs.
Qed.

(** X11: the execution fee is a number of the sign of the quantity: never
    a NaN, and never negative for a quantity that is not. *)
Theorem execution_fee_has_sign_of_quantity :
  exists l w' out x,
    simulate_execution message w = (Ret l, w') /\ heap w' !! l = Some out /\
    out !! "execution_fee" = Some (VFloat x) /\ has_sign (q <? 0) x = true.
Proof.
  exists (S (length (heap w))), (world_after w d p qf q), (result_of d p qf ∪ d),
    (F64.round_ndigits (total_fee_of qf) 4).
  split; [ apply simulate_returns; assumption | ].
  split; [ apply world_after_output | ].
  split; [ apply output_derived, result_dict_execution_fee | ].
  apply round_ndigits_sign. unfold total_fee_of.
  rewrite <- (xorb_false_r (q <? 0)).
  apply (mul_finite_sign _ _ false), (float_of_int_sign _ _ Hfloat).
Qed.

(** X12: a "BUY" of a non-negative quantity at a non-negative price, with
    a fill price that is finite, has an execution cost that is a
    non-negative number. *)
Theorem buy_cost_is_not_negative :
  d !! "action" = Some (VStr "BUY") ->
  has_sign false p = true ->
  0 <= q ->
  F64.is_finite (F64.mul p f_1_001) = true ->
  exists l w' out x,
    simulate_execution message w = (Ret l, w') /\ heap w' !! l = Some out /\
    out !! "execution_cost" = Some (VFloat x) /\ has_sign false x = true.
Proof.
  intros Ha Hs Hq0 Hfin.
  exists (S (length (heap w))), (world_after w d p qf q), (result_of d p qf ∪ d),
    (F64.round_ndigits (execution_cost_of p qf (action_of d)) 4).
  split; [ apply simulate_returns; assumption | ].
  split; [ apply world_after_output | ].
  split; [ apply output_derived, result_dict_execution_cost | ].
  apply round_ndigits_sign.
  unfold execution_cost_of, fill_price_of, factor_of, total_fee_of.
  rewrite (proj2 (eq_str_action_BUY d) Ha).
  destruct (float_of_int_sign _ _ Hfloat) as [Fq Sq].
  replace (q <? 0) with false in Sq by (symmetry; apply Z.ltb_ge, Hq0).
  apply add_nonneg.
  - apply (mul_sign false _ false); [ exact Hfin | exact Fq | | exact Sq ].
    apply (mul_finite_sign false _ false), Hs.
  - apply (mul_finite_sign false _ false), Sq.
Qed.

End Behaviour.

Lemma simulate_effects_witness :
  let w := World [∅; colliding] [] in
  exists l w' result out,
    simulate_execution 1%nat w = (Ret l, w') /\
    heap w' = heap w ++ [result; out] /\
    l = S (length (heap w)) /\
    dom result = derived_fields /\
    out = result ∪ colliding /\
    logs w' =
      logs w ++ [info_record (action_of colliding) 10 (symbol_of colliding);
                 debug_record result].
Proof.
  intros w.
  apply (simulate_effects w 1%nat colliding f_100_0 10 f_10_0); reflexivity.
Defined.

Lemma simulating_the_output_again_witness :
  let w := World [trade "SELL" (VInt 10)] [] in
  exists l w' out,
    simulate_execution 0%nat w = (Ret l, w') /\ heap w' !! l = Some out /\
    exists l2 w2,
      simulate_execution l w' = (Ret l2, w2) /\ heap w2 !! l2 = Some out /\
      l2 <> l.
Proof.
  intros w.
  apply (simulating_the_output_again w 0%nat (trade "SELL" (VInt 10))
           f_100_0 10 f_10_0); reflexivity.
Defined.

Lemma fill_price_sign_witness :
  let w := World [trade "SELL" (VInt 10)] [] in
  exists l w' out x,
    simulate_execution 0%nat w = (Ret l, w') /\ heap w' !! l = Some out /\
    out !! "fill_price" = Some (VFloat x) /\ has_sign false x = true.
Proof.
  intros w.
  apply (fill_price_has_sign_of_price w 0%nat (trade "SELL" (VInt 10))
           f_100_0 10 f_10_0); reflexivity.
Defined.

Lemma execution_fee_sign_witness :
  let w := World [trade "SELL" (VInt (-10))] [] in
  exists l w' out x,
    simulate_execution 0%nat w = (Ret l, w') /\ heap w' !! l = Some out /\
    out !! "execution_fee" = Some (VFloat x) /\ has_sign (-10 <? 0) x = true.
Proof.
  intros w.
  apply (execution_fee_has_sign_of_quantity w 0%nat (trade "SELL" (VInt (-10)))
           f_100_0 (-10) (SFopp f_10_0)); reflexivity.
Defined.

Lemma buy_cost_witness :
  let w := World [trade "BUY" (VInt 10)] [] in
  exists l w' out x,
    simulate_execution 0%nat w = (Ret l, w') /\ heap w' !! l = Some out /\
    out !! "execution_cost" = Some (VFloat x) /\ has_sign false x = true.
Proof.
  intros w.
  apply (buy_cost_is_not_negative w 0%nat (trade "BUY" (VInt 10))
           f_100_0 10 f_10_0); try reflexivity.
  discriminate.
Defined.

(** ** Zero quantities and prices that are not numbers *)

(** X5: a message whose quantity is 0 and whose fill price is finite has
    the fee 0.0 and a zero execution cost: 0.0 for a "BUY", and otherwise
    the zero of the sign opposite to the fill price's, -0.0 for a positive
    price. *)
Theorem zero_quantity_costs_nothing w message (d : dict) p :
  heap w !! message = Some d ->
  py_float (price_of d) = Ok p ->
  py_int (quantity_of d) = Ok 0 ->
  F64.is_finite (F64.mul p (factor_of (action_of d))) = true ->
  exists l w' out,
    simulate_execution message w = (Ret l, w') /\ heap w' !! l = Some out /\
    out !! "execution_fee" = Some (VFloat (S754_zero false)) /\
    out !! "execution_cost" =
      Some (VFloat (S754_zero
                      (if eq_str (action_of d) "BUY" then false
                       else negb (sign_bit (F64.mul p (factor_of (action_of d))))))).
Proof.
  intros Hm Hp Hq Hfin.
  assert (Hf : float_of_int 0 = Ok (S754_zero false)) by reflexivity.
  exists (S (length (heap w))), (world_after w d p (S754_zero false) 0),
    (result_of d p (S754_zero false) ∪ d).
  split; [ apply (simulate_returns _ _ _ Hm _ _ _ Hp Hq Hf) | ].
  split; [ apply world_after_output | ].
  split; [ apply output_derived; reflexivity | ].
  apply output_derived. unfold result_of.
  rewrite result_dict_execution_cost. do 2 f_equal.
  unfold execution_cost_of, fill_price_of.
  destruct (F64.mul p (factor_of (action_of d))) as [ t | t | | t m e ];
    try discriminate;
    destruct (eq_str (action_of d) "BUY"); destruct t; reflexivity.
Qed.

Lemma zero_quantity_witness :
  let d := trade "HOLD" (VInt 0) in
  exists l w' out,
    simulate_execution 0%nat (World [d] []) = (Ret l, w') /\
    heap w' !! l = Some out /\
    out !! "execution_fee" = Some (VFloat (S754_zero false)) /\
    out !! "execution_cost" =
      Some (VFloat (S754_zero
                      (if eq_str (action_of d) "BUY" then false
                       else negb (sign_bit (F64.mul f_100_0 (factor_of (action_of d))))))).
Proof.
  intros d.
  apply (zero_quantity_costs_nothing (World [d] []) 0%nat d f_100_0);
    reflexivity.
Defined.

(** X6: a price that [float] converts to a NaN, the text "nan" for one,
    raises nothing: the fill price and the execution cost of the output are
    NaN. *)
Theorem nan_price_propagates w message (d : dict) q qf :
  heap w !! message = Some d ->
  py_float (price_of d) = Ok S754_nan ->
  py_int (quantity_of d) = Ok q ->
  float_of_int q = Ok qf ->
  exists l w' out,
    simulate_execution message w = (Ret l, w') /\ heap w' !! l = Some out /\
    out !! "fill_price" = Some (VFloat S754_nan) /\
    out !! "execution_cost" = Some (VFloat S754_nan).
Proof.
  intros Hm Hp Hq Hf.
  exists (S (length (heap w))), (world_after w d S754_nan qf q),
    (result_of d S754_nan qf ∪ d).
  split; [ apply (simulate_returns _ _ _ Hm _ _ _ Hp Hq Hf) | ].
  split; [ apply world_after_output | ].
  split; apply output_derived; unfold result_of.
  - rewrite result_dict_fill_price. reflexivity.
  - rewrite result_dict_execution_cost. unfold execution_cost_of.
    destruct (eq_str (action_of d) "BUY"); reflexivity.
Qed.

Lemma nan_price_witness :
  exists l w' out,
    simulate_execution 0%nat (World [nan_price] []) = (Ret l, w') /\
    heap w' !! l = Some out /\
    out !! "fill_price" = Some (VFloat S754_nan) /\
    out !! "execution_cost" = Some (VFloat S754_nan).
Proof.
  apply (nan_price_propagates (World [nan_price] []) 0%nat nan_price 10 f_10_0);
    reflexivity.
Defined.

(** ** What the derived fields depend on *)

(** X8: the derived fields depend on the action, on the price as a float
    and on the quantity as an integer only: two messages that agree on
    these get the same five derived fields, whatever their other fields
    are and however price and quantity are written. *)
Theorem derived_fields_depend_on_three_inputs
    w1 m1 (d1 : dict) w2 m2 (d2 : dict) p q qf :
  heap w1 !! m1 = Some d1 ->
  heap w2 !! m2 = Some d2 ->
  action_of d1 = action_of d2 ->
  py_float (price_of d1) = Ok p -> py_float (price_of d2) = Ok p ->
  py_int (quantity_of d1) = Ok q -> py_int (quantity_of d2) = Ok q ->
  float_of_int q = Ok qf ->
  exists l1 w1' out1 l2 w2' out2,
    simulate_execution m1 w1 = (Ret l1, w1') /\ heap w1' !! l1 = Some out1 /\
    simulate_execution m2 w2 = (Ret l2, w2') /\ heap w2' !! l2 = Some out2 /\
    forall k, k ∈ derived_fields -> is_Some (out1 !! k) /\ out1 !! k = out2 !! k.
Proof.
  intros H1 H2 Ha Hp1 Hp2 Hq1 Hq2 Hf.
  exists (S (length (heap w1))), (world_after w1 d1 p qf q), (result_of d1 p qf ∪ d1),
    (S (length (heap w2))), (world_after w2 d2 p qf q), (result_of d2 p qf ∪ d2).
  split; [ apply (simulate_returns _ _ _ H1 _ _ _ Hp1 Hq1 Hf) | ].
  split; [ apply world_after_output | ].
  split; [ apply (simulate_returns _ _ _ H2 _ _ _ Hp2 Hq2 Hf) | ].
  split; [ apply world_after_output | ].
  intros k Hk.
  assert (Hs : is_Some (result_of d1 p qf !! k)).
  { apply elem_of_dom. unfold result_of. rewrite result_dict_dom. exact Hk. }
  destruct Hs as [v Hv].
  rewrite (output_derived _ d1 _ _ Hv). split; [ eauto | ].
  symmetry. apply output_derived.
  unfold result_of in *. rewrite <- Ha. exact Hv.
Qed.

Lemma derived_fields_witness :
  exists l1 w1' out1 l2 w2' out2,
    simulate_execution 0%nat (World [trade "BUY" (VInt 10)] []) = (Ret l1, w1') /\
    heap w1' !! l1 = Some out1 /\
    simulate_execution 1%nat (World [∅; loose_trade] []) = (Ret l2, w2') /\
    heap w2' !! l2 = Some out2 /\
    forall k, k ∈ derived_fields -> is_Some (out1 !! k) /\ out1 !! k = out2 !! k.
Proof.
  apply (derived_fields_depend_on_three_inputs
           (World [trade "BUY" (VInt 10)] []) 0%nat (trade "BUY" (VInt 10))
           (World [∅; loose_trade] []) 1%nat loose_trade f_100_0 10 f_10_0);
    reflexivity.
Defined.

(** ** Validation followed by simulation *)

(** X9: on a message that passes the schema check, validating and then
    simulating what validation returned is simulating the message itself,
    after the one DEBUG record of the validation. *)
Theorem validated_message_is_simulated schema w message (d : dict) :
  heap w !! message = Some d ->
  schema d = true ->
  (let* validated := validate_input_message schema message in
   simulate_execution validated) w
  = simulate_execution message (World (heap w) (logs w ++ [validating_record])).
Proof.
  intros Hm Hs.
  apply bind_Ret, (validate_accepts schema w message d Hm Hs).
Qed.

Lemma validated_message_witness :
  (let* validated := validate_input_message spec_message_schema 0%nat in
   simulate_execution validated) (World [trade "BUY" (VInt 10)] [])
  = simulate_execution 0%nat
      (World (heap (World [trade "BUY" (VInt 10)] []))
         (logs (World [trade "BUY" (VInt 10)] []) ++ [validating_record])).
Proof.
  apply (validated_message_is_simulated spec_message_schema
           (World [trade "BUY" (VInt 10)] []) 0%nat (trade "BUY" (VInt 10)));
    reflexivity.
Defined.
